(** * A shallow embedding of [refresh_cookie.py] (class [CookieManager]).

    Python values are modelled as follows:
    - a [str] is a Rocq [string] (ASCII characters);
    - a cookie dictionary is an association list in insertion order, with
      Python's [d[k] = v] replacing the value in place when [k] is present
      and appending otherwise ([dict_set]);
    - [None] is [None] of an [option];
    - timestamps ([datetime.now().timestamp()]) are [Z] seconds;
    - effects (reading the cookie file and the environment, the HTTP GET,
      writing the cookie file) are explicit inputs and outputs. *)

From Stdlib Require Import String Ascii List ZArith Bool Lia.
Import ListNotations.
Open Scope string_scope.

(** ** Module constants *)

(** [CHECK_INTERVAL = 60 * 10] *)
Definition CHECK_INTERVAL : nat := 600.
(** [COOKIE_EXPIRY_THRESHOLD = 60 * 60 * 3] *)
Definition COOKIE_EXPIRY_THRESHOLD : Z := 10800.

(** ** Python string helpers *)

(** Characters removed by [str.strip()] among the code points 0-255 a
    character of a header string can have ([str.isspace]: tab, LF, VT, FF,
    CR, 0x1c-0x1f, space, NEL 0x85 and NBSP 0xa0). *)
Definition is_py_space (c : ascii) : bool :=
  let n := nat_of_ascii c in
  (Nat.leb 9 n && Nat.leb n 13) || (Nat.leb 28 n && Nat.leb n 32) ||
  Nat.eqb n 133 || Nat.eqb n 160.

Fixpoint lstrip (s : string) : string :=
  match s with
  | EmptyString => EmptyString
  | String c r => if is_py_space c then lstrip r else s
  end.

Definition rev_string (s : string) : string :=
  string_of_list_ascii (rev (list_ascii_of_string s)).

(** [s.strip()] *)
Definition strip (s : string) : string :=
  rev_string (lstrip (rev_string (lstrip s))).

(** [s.split(c)] for a one-character separator: never empty. *)
Fixpoint split_char (c : ascii) (s : string) : list string :=
  match s with
  | EmptyString => [EmptyString]
  | String d r =>
      if Ascii.eqb c d then EmptyString :: split_char c r
      else match split_char c r with
           | x :: xs => String d x :: xs
           | [] => [String d EmptyString]
           end
  end.

(** [sep.join(parts)] *)
Fixpoint join (sep : string) (parts : list string) : string :=
  match parts with
  | [] => EmptyString
  | [x] => x
  | x :: xs => x ++ sep ++ join sep xs
  end.

(** [f"{name}={value}"] *)
Definition kv (name value : string) : string := name ++ "=" ++ value.

(** ** Python dictionaries of cookies *)

Definition cdict := list (string * string).

(** [k in d] *)
Definition dict_mem (k : string) (d : cdict) : bool :=
  existsb (fun p => String.eqb (fst p) k) d.

(** [d.get(k)] *)
Fixpoint dict_get (k : string) (d : cdict) : option string :=
  match d with
  | [] => None
  | (k', v) :: r => if String.eqb k' k then Some v else dict_get k r
  end.

(** [d[k] = v]: in place when present, appended otherwise. *)
Fixpoint dict_set (k v : string) (d : cdict) : cdict :=
  match d with
  | [] => [(k, v)]
  | (k', v') :: r => if String.eqb k' k then (k', v) :: r else (k', v') :: dict_set k v r
  end.

(** Truthiness of [self.cookies]: [None] and [{}] are false. *)
Definition truthy_dict (c : option cdict) : bool :=
  match c with
  | Some (_ :: _) => true
  | _ => false
  end.

(** Truthiness of an optional string: [None] and [""] are false. *)
Definition truthy_str (s : option string) : bool :=
  match s with
  | Some (String _ _) => true
  | _ => false
  end.

(** ** State of a [CookieManager] *)

Record cm_state := mk_state {
  xianyu_api : bool;                  (** [self.xianyu_api] is set *)
  cookies : option cdict;             (** [self.cookies] *)
  cookies_str : option string;        (** [self.cookies_str] *)
  device_id : option string;          (** [self.device_id] *)
  last_refresh_time : Z               (** [self.last_refresh_time] *)
}.

(** The JSON object stored in [COOKIE_FILE]; the outer [option] of a field
    is the presence of its key, the inner one a JSON [null]. *)
Record saved := mk_saved {
  f_cookies : option (option cdict);
  f_cookies_str : option (option string);
  f_device_id : option (option string);
  f_last_refresh_time : option Z
}.

(** Contents of [COOKIE_FILE] on disk. *)
Inductive disk :=
| NoFile                (** [os.path.exists] is false *)
| Unreadable            (** open or [json.load] raises, or not an object *)
| JsonObj (s : saved).

(** Outcome of [open(COOKIE_FILE, "w")] and [json.dump]: on failure the
    file is left in some state [after] (unchanged, truncated, partial). *)
Inductive write_outcome :=
| WriteOk
| WriteFail (after : disk).

(** Response of [self.xianyu_api.get_token(...)]: it raises, or returns a
    dict whose ['ret'] is absent ([None]) or a list of strings. *)
Inductive token_response :=
| TokenRaise
| TokenResp (ret : option (list string)).

(** The ['Set-Cookie'] entry of [response.headers]: a string, or a list
    for the code's [isinstance(..., list)] branch. [requests] folds
    repeated headers into one string, so a response of [requests.get]
    always gives [HStr]. *)
Inductive header_val :=
| HStr (s : string)
| HList (l : list string).

(** Outcome of [requests.get(REFRESH_COOKIE_URL, ...)]: it raises, or
    returns a response with or without a ['Set-Cookie'] header. *)
Inductive http_result :=
| HttpRaise
| HttpResp (set_cookie : option header_val).

(** ** Methods of [CookieManager]

    The methods run one at a time: [self.refresh_lock] only serialises
    them, so a call is a function of the state and of its effects. *)

Section CookieManager.

(** [utils.xianyu_utils.trans_cookies] and [generate_device_id], the
    cookie codec; any pure functions. *)
Variable trans_cookies : string -> cdict.
Variable generate_device_id : string -> string.

Definition with_record (st : cm_state) (c : option cdict) (cs : option string)
    (did : option string) (t : Z) : cm_state :=
  mk_state (xianyu_api st) c cs did t.

(** [_load_cookie_from_file]; [now] is [datetime.now().timestamp()]. *)
Definition _load_cookie_from_file (st : cm_state) (d : disk) (now : Z)
    : bool * cm_state :=
  match d with
  | JsonObj s =>
      match f_cookies s, f_cookies_str s with
      | Some c, Some cs =>
          let did := match f_device_id s with Some x => x | None => None end in
          let t := match f_last_refresh_time s with Some t => t | None => now end in
          (true, with_record st c cs did t)
      | _, _ => (false, st)
      end
  | _ => (false, st)
  end.

(** [_load_cookie_from_env]; [env] is [os.getenv("COOKIES_STR")]. *)
Definition _load_cookie_from_env (st : cm_state) (env : option string)
    : bool * cm_state :=
  match env with
  | Some cs =>
      if truthy_str env then
        let c := trans_cookies cs in
        let did :=
          match dict_get "unb" c with
          | Some uid => if truthy_str (Some uid) then Some (generate_device_id uid)
                        else device_id st
          | None => device_id st
          end in
        (true, with_record st (Some c) (Some cs) did (last_refresh_time st))
      else (false, st)
  | None => (false, st)
  end.

(** The object written by [_save_cookie_to_file]. *)
Definition saved_of (st : cm_state) : saved :=
  mk_saved (Some (cookies st)) (Some (cookies_str st)) (Some (device_id st))
           (Some (last_refresh_time st)).

(** [_save_cookie_to_file]: the success flag and the file afterwards. *)
Definition _save_cookie_to_file (st : cm_state) (d : disk) (wo : write_outcome)
    : bool * disk :=
  match wo with
  | WriteOk => (true, JsonObj (saved_of st))
  | WriteFail after => (false, after)
  end.

(** [set_cookies(cookies_dict, cookies_str, device_id=None)] *)
Definition set_cookies (st : cm_state) (d : disk) (cookies_dict : cdict)
    (cs : string) (did : option string) (wo : write_outcome) : cm_state * disk :=
  let did' := if truthy_str did then did else device_id st in
  let st1 := with_record st (Some cookies_dict) (Some cs) did' (last_refresh_time st) in
  (st1, snd (_save_cookie_to_file st1 d wo)).

(** [get_cookies()] *)
Definition get_cookies (st : cm_state) : option cdict * option string * option string :=
  (cookies st, cookies_str st, device_id st).

(** [check_cookie_valid()]; [tr] is what [get_token] does and [now] is
    [datetime.now().timestamp()]. *)
Definition check_cookie_valid (st : cm_state) (tr : token_response) (now : Z) : bool :=
  if negb (truthy_dict (cookies st)) || negb (xianyu_api st) then false
  else
    match tr with
    | TokenRaise => false
    | TokenResp (Some (r0 :: _)) =>
        if String.prefix "SUCCESS" r0 then
          if Z.gtb (now - last_refresh_time st) COOKIE_EXPIRY_THRESHOLD then false
          else true
        else false
    | TokenResp _ => false
    end.

(** One ['Set-Cookie'] string:
    [cookie_str.split('=')[0].strip()] and
    [cookie_str.split('=')[1].split(';')[0].strip()];
    [None] when [[1]] raises [IndexError]. *)
Definition parse_set_cookie (h : string) : option (string * string) :=
  match split_char "=" h with
  | x :: y :: _ => Some (strip x, strip (hd EmptyString (split_char ";" y)))
  | _ => None
  end.

(** The loop over the ['Set-Cookie'] strings filling [cookies_dict] and
    [cookies_str_parts]; [None] when a string raises. *)
Fixpoint add_set_cookies (hs : list string) (d : cdict) (parts : list string)
    : option (cdict * list string) :=
  match hs with
  | [] => Some (d, parts)
  | h :: r =>
      match parse_set_cookie h with
      | None => None
      | Some (n, v) => add_set_cookies r (dict_set n v d) (parts ++ [kv n v])
      end
  end.

Definition parse_header (hv : header_val) : option (cdict * list string) :=
  match hv with
  | HStr s => add_set_cookies [s] [] []
  | HList l => add_set_cookies l [] []
  end.

(** [for name, value in self.cookies.items(): if name not in cookies_dict: ...] *)
Fixpoint merge_old (old : cdict) (d : cdict) (parts : list string)
    : cdict * list string :=
  match old with
  | [] => (d, parts)
  | (n, v) :: r =>
      if dict_mem n d then merge_old r d parts
      else merge_old r (dict_set n v d) (parts ++ [kv n v])
  end.

(** Result of a refresh: the returned flag, the state and the file
    afterwards, and the [Cookie] header of every HTTP GET issued. *)
Record refresh_out := mk_out {
  r_ok : bool;
  r_state : cm_state;
  r_disk : disk;
  r_requests : list (option string)
}.

(** The part of [refresh_cookie_with_requests] after the cookies are
    loaded: the GET with [Cookie: self.cookies_str], the parsing of
    ['Set-Cookie'], the merge, the update and the save. *)
Definition refresh_request_step (st1 : cm_state) (d : disk) (http : http_result)
    (now : Z) (wo : write_outcome) : refresh_out :=
  let req := [cookies_str st1] in
  match http with
  | HttpRaise => mk_out false st1 d req
  | HttpResp None => mk_out false st1 d req
  | HttpResp (Some hv) =>
      match parse_header hv with
      | None => mk_out false st1 d req
      | Some (d0, p0) =>
          match cookies st1 with
          | None => mk_out false st1 d req       (* [None.items()] raises *)
          | Some old =>
              let '(d1, p1) := merge_old old d0 p0 in
              let st2 := with_record st1 (Some d1) (Some (join "; " p1))
                                     (device_id st1) now in
              mk_out true st2 (snd (_save_cookie_to_file st2 d wo)) req
          end
      end
  end.

(** The start of [refresh_cookie_with_requests]:
    [if not self.cookies: if not self._load_cookie_from_file() and
    not self._load_cookie_from_env(): return False]. *)
Definition load_for_refresh (st : cm_state) (d : disk) (env : option string)
    (now : Z) : bool * cm_state :=
  if truthy_dict (cookies st) then (true, st)
  else
    let '(b1, s1) := _load_cookie_from_file st d now in
    if b1 then (true, s1) else _load_cookie_from_env s1 env.

(** [refresh_cookie_with_requests()] (also [refresh_cookie()]). *)
Definition refresh_cookie_with_requests (st : cm_state) (d : disk)
    (env : option string) (http : http_result) (now : Z) (wo : write_outcome)
    : refresh_out :=
  let '(ok, st1) := load_for_refresh st d env now in
  if negb ok then mk_out false st1 d []
  else refresh_request_step st1 d http now wo.

End CookieManager.

(** ** The background thread

    Time is counted in whole seconds, the unit of the [time.sleep(1)]
    increments; [stop_event t] is [self.stop_event.is_set()] at second [t]
    (an event set during an increment is seen at its end). *)

(** What one pass of the [try] block of [_auto_refresh_loop] does before
    the wait: [check_cookie_valid()] and maybe [refresh_cookie()] take
    [dur] seconds, and the pass completes or raises. *)
Inductive body_outcome :=
| BodyDone (dur : nat)
| BodyRaise (dur : nat).

Section AutoRefresh.

Variable stop_event : nat -> bool.
Variable body : nat -> body_outcome.

(** [for _ in range(n): if self.stop_event.is_set(): break; time.sleep(1)]
    started at second [t]; the second at which the loop is left. *)
Fixpoint sleep_loop (n t : nat) : nat :=
  match n with
  | O => t
  | S n' => if stop_event t then t else sleep_loop n' (S t)
  end.

(** [_auto_refresh_loop] with wait [interval] ([CHECK_INTERVAL] in the
    source) started at second [t]: [Some e] when the [while] loop is left
    at second [e] within [fuel] passes. *)
Fixpoint auto_refresh_loop (interval fuel t : nat) : option nat :=
  match fuel with
  | O => None
  | S f =>
      if stop_event t then Some t
      else
        match body t with
        | BodyDone dur => auto_refresh_loop interval f (sleep_loop interval (t + dur))
        | BodyRaise dur => auto_refresh_loop interval f (t + dur + 60)  (* [time.sleep(60)] *)
        end
  end.

End AutoRefresh.

Definition _auto_refresh_loop (stop_event : nat -> bool) (body : nat -> body_outcome)
    : nat -> nat -> option nat :=
  auto_refresh_loop stop_event body CHECK_INTERVAL.

(** [stop_auto_refresh()] called at second [t]: when the thread is alive it
    sets the event and returns from [self.refresh_thread.join(timeout=5)] at
    the thread's exit second [exit] or at [t + 5], whichever comes first
    ([None]: the thread does not exit). The second at which it returns. *)
Definition stop_auto_refresh (alive : bool) (t : nat) (exit : option nat) : nat :=
  if alive then
    match exit with
    | Some e => Nat.max t (Nat.min e (t + 5))
    | None => t + 5
    end
  else t.

(** ** Definitions following the spec's words *)

(** The canonical semicolon-joined [name=value] serialization of an
    entries mapping. *)
Definition canonical_raw (d : cdict) : string :=
  join "; " (map (fun p => kv (fst p) (snd p)) d).

Fixpoint index_char (c : ascii) (s : string) : option nat :=
  match s with
  | EmptyString => None
  | String d r => if Ascii.eqb c d then Some 0
                  else option_map S (index_char c r)
  end.

(** A [Set-Cookie] string as the spec parses it: the name is the segment
    before the first ['='], the value the whole remainder after it up to
    the first [';']. *)
Definition spec_parse_set_cookie (h : string) : option (string * string) :=
  match index_char "=" h with
  | None => None
  | Some i =>
      let rest := substring (S i) (String.length h) h in
      let value := match index_char ";" rest with
                   | Some j => substring 0 j rest
                   | None => rest
                   end in
      Some (substring 0 i h, value)
  end.

(** The names carried by the ['Set-Cookie'] strings of a header. *)
Definition header_strings (hv : header_val) : list string :=
  match hv with HStr s => [s] | HList l => l end.

Definition set_cookie_names (hs : list string) : list string :=
  flat_map (fun h => match parse_set_cookie h with
                     | Some (n, _) => [n]
                     | None => []
                     end) hs.

Definition header_names (hv : header_val) : list string :=
  set_cookie_names (header_strings hv).

Fixpoint distinct_b (l : list string) : bool :=
  match l with
  | [] => true
  | x :: r => negb (existsb (String.eqb x) r) && distinct_b r
  end.

(** The response does not repeat a cookie name in ['Set-Cookie']. *)
Definition set_cookie_names_distinct (http : http_result) : bool :=
  match http with
  | HttpResp (Some hv) => distinct_b (header_names hv)
  | _ => true
  end.

(** The failures of the request step that the spec names: the GET raises,
    the response has no ['Set-Cookie'], or a ['Set-Cookie'] string raises. *)
Definition failing_response (http : http_result) : bool :=
  match http with
  | HttpRaise => true
  | HttpResp None => true
  | HttpResp (Some hv) => match parse_header hv with None => true | Some _ => false end
  end.


(** ** The constructor and the thread handle *)

(** [CookieManager.__init__(xianyu_api)]: the fields start empty with
    [last_refresh_time = now]; [_load_cookie_from_file()], then
    [if not self.cookies: self._load_cookie_from_env()]. *)
Definition cm_init (trans_cookies : string -> cdict)
    (generate_device_id : string -> string) (api : bool) (d : disk)
    (env : option string) (now : Z) : cm_state :=
  let st0 := mk_state api None None None now in
  let st1 := snd (_load_cookie_from_file st0 d now) in
  if truthy_dict (cookies st1) then st1
  else snd (_load_cookie_from_env trans_cookies generate_device_id st1 env).

(** [self.refresh_thread] (alive or not), [self.stop_event] and the number
    of threads started so far. *)
Record thread_ctl := mk_ctl {
  thread_alive : bool;
  stop_set : bool;
  started : nat
}.

(** [start_auto_refresh()]: a no-op while the thread is alive; otherwise
    [self.stop_event.clear()] and a new thread is started. *)
Definition start_auto_refresh (c : thread_ctl) : thread_ctl :=
  if thread_alive c then c
  else mk_ctl true false (S (started c)).

(** [stop_auto_refresh()] on the thread handle: when the thread is alive,
    [self.stop_event.set()] and [join(timeout=5)], after which the thread is
    gone when [exited] (it left the loop within the timeout). *)
Definition stop_auto_refresh_thread (c : thread_ctl) (exited : bool) : thread_ctl :=
  if thread_alive c then mk_ctl (negb exited) true (started c)
  else c.

(** The cookie strings [name=value] of a dictionary, in its order. *)
Definition ser (d : cdict) : list string := map (fun p => kv (fst p) (snd p)) d.

(** ** Helper lemmas *)

Lemma refresh_request_step_requests st1 d http now wo :
  r_requests (refresh_request_step st1 d http now wo) = [cookies_str st1].
Proof.
  unfold refresh_request_step.
  destruct http as [|[hv|]]; simpl; auto.
  destruct (parse_header hv) as [[d0 p0]|]; simpl; auto.
  destruct (cookies st1) as [old|]; simpl; auto.
  destruct (merge_old old d0 p0); reflexivity.
Qed.

Lemma refresh_request_step_fail st1 d http now wo :
  r_ok (refresh_request_step st1 d http now wo) = false ->
  r_state (refresh_request_step st1 d http now wo) = st1 /\
  r_disk (refresh_request_step st1 d http now wo) = d.
Proof.
  unfold refresh_request_step.
  destruct http as [|[hv|]]; simpl; auto.
  destruct (parse_header hv) as [[d0 p0]|]; simpl; auto.
  destruct (cookies st1) as [old|]; simpl; auto.
  destruct (merge_old old d0 p0); simpl; discriminate.
Qed.

Lemma refresh_request_step_failing st1 d http now wo :
  failing_response http = true ->
  r_ok (refresh_request_step st1 d http now wo) = false.
Proof.
  unfold failing_response, refresh_request_step.
  destruct http as [|[hv|]]; simpl; auto.
  destruct (parse_header hv) as [[d0 p0]|]; simpl; auto; discriminate.
Qed.

Lemma refresh_present tc gd st d env http now wo :
  truthy_dict (cookies st) = true ->
  refresh_cookie_with_requests tc gd st d env http now wo =
  refresh_request_step st d http now wo.
Proof.
  intros Hc. unfold refresh_cookie_with_requests, load_for_refresh.
  rewrite Hc. reflexivity.
Qed.

(** ** Claims *)

(** C1: with a non-empty cookie dictionary, an API configured and a token
    response whose [ret[0]] starts with ["SUCCESS"], [check_cookie_valid]
    is [false] when more than [COOKIE_EXPIRY_THRESHOLD] (3 hours) passed
    since [last_refresh_time], and [true] otherwise. *)
Theorem check_cookie_valid_expiry (st : cm_state) (r0 : string) (rest : list string)
    (now : Z)
    (Hcookies : truthy_dict (cookies st) = true)
    (Hapi : xianyu_api st = true)
    (Hsuccess : String.prefix "SUCCESS" r0 = true) :
  ((now - last_refresh_time st > COOKIE_EXPIRY_THRESHOLD)%Z ->
   check_cookie_valid st (TokenResp (Some (r0 :: rest))) now = false) /\
  ((now - last_refresh_time st <= COOKIE_EXPIRY_THRESHOLD)%Z ->
   check_cookie_valid st (TokenResp (Some (r0 :: rest))) now = true).
Proof.
  unfold check_cookie_valid. rewrite Hcookies, Hapi, Hsuccess. simpl.
  split; intros H.
  - destruct (Z.gtb_spec (now - last_refresh_time st) COOKIE_EXPIRY_THRESHOLD);
      [reflexivity | lia].
  - destruct (Z.gtb_spec (now - last_refresh_time st) COOKIE_EXPIRY_THRESHOLD); lia.
Qed.

Lemma check_cookie_valid_expiry_witness :
  let st := mk_state true (Some [("a","1")]) (Some "a=1") None 0 in
  check_cookie_valid st (TokenResp (Some ["SUCCESS::ok"])) 12600 = false /\
  check_cookie_valid st (TokenResp (Some ["SUCCESS::ok"])) 3600 = true.
Proof.
  intros st.
  destruct (check_cookie_valid_expiry st "SUCCESS::ok" [] 12600 eq_refl eq_refl eq_refl)
    as [H1 _].
  destruct (check_cookie_valid_expiry st "SUCCESS::ok" [] 3600 eq_refl eq_refl eq_refl)
    as [_ H2].
  split; [apply H1 | apply H2]; vm_compute; congruence.
Defined.

(** C2: when a record is present, a response with no [Set-Cookie], a GET
    that raises or a [Set-Cookie] string that raises makes the refresh
    return [false]; and whenever the refresh returns [false] the state
    (cookies, cookie string, device id, last refresh time) and the cookie
    file are those before the call. *)
Theorem refresh_failure_preserves_record tc gd (st : cm_state) (d : disk)
    (env : option string) (http : http_result) (now : Z) (wo : write_outcome)
    (Hpresent : truthy_dict (cookies st) = true) :
  (failing_response http = true ->
   r_ok (refresh_cookie_with_requests tc gd st d env http now wo) = false) /\
  (r_ok (refresh_cookie_with_requests tc gd st d env http now wo) = false ->
   r_state (refresh_cookie_with_requests tc gd st d env http now wo) = st /\
   r_disk (refresh_cookie_with_requests tc gd st d env http now wo) = d).
Proof.
  rewrite (refresh_present tc gd st d env http now wo Hpresent).
  split.
  - apply refresh_request_step_failing.
  - apply refresh_request_step_fail.
Qed.

Lemma refresh_failure_preserves_record_witness :
  let st := mk_state true (Some [("a","1"); ("b","2")]) (Some "a=1; b=2") (Some "dev1") 0 in
  r_ok (refresh_cookie_with_requests (fun _ => []) (fun _ => "") st NoFile None
          (HttpResp None) 100 WriteOk) = false /\
  r_state (refresh_cookie_with_requests (fun _ => []) (fun _ => "") st NoFile None
          (HttpResp None) 100 WriteOk) = st.
Proof.
  intros st.
  destruct (refresh_failure_preserves_record (fun _ => []) (fun _ => "") st NoFile None
              (HttpResp None) 100 WriteOk eq_refl) as [H1 H2].
  assert (Hf : r_ok (refresh_cookie_with_requests (fun _ => []) (fun _ => "") st NoFile None
          (HttpResp None) 100 WriteOk) = false) by (apply H1; reflexivity).
  split; [exact Hf | apply (proj1 (H2 Hf))].
Defined.

(** C3 (the code at a [Set-Cookie] value holding ['=']): for
    ["a=b=c; Path=/"] the source keeps the value ["b"], the segment between
    the first and the second ['='], where the spec's parse keeps ["b=c"];
    a refresh stores ["b"]. *)
Theorem set_cookie_value_cut_at_second_eq :
  parse_set_cookie "a=b=c; Path=/" = Some ("a", "b") /\
  spec_parse_set_cookie "a=b=c; Path=/" = Some ("a", "b=c") /\
  cookies (r_state (refresh_cookie_with_requests (fun _ => []) (fun _ => "")
     (mk_state true (Some [("x", "1")]) (Some "x=1") None 0) NoFile None
     (HttpResp (Some (HStr "a=b=c; Path=/"))) 5 WriteOk))
  = Some [("a", "b"); ("x", "1")].
Proof. vm_compute. repeat split. Qed.

(** *** The cookie string built by a refresh *)

Lemma dict_set_absent k v d :
  dict_mem k d = false -> dict_set k v d = app d [(k, v)].
Proof.
  induction d as [|[k' v'] r IH]; simpl; auto.
  unfold dict_mem; simpl. destruct (String.eqb k' k); simpl; [discriminate|].
  intros H. rewrite IH; auto.
Qed.

Lemma dict_mem_app k d k' v :
  dict_mem k (app d [(k', v)]) = dict_mem k d || String.eqb k' k.
Proof.
  unfold dict_mem. rewrite existsb_app. simpl. rewrite orb_false_r. reflexivity.
Qed.

Lemma merge_old_ser old : forall d p,
  p = ser d -> snd (merge_old old d p) = ser (fst (merge_old old d p)).
Proof.
  induction old as [|[n v] r IH]; intros d p Hp; simpl; auto.
  destruct (dict_mem n d) eqn:Hm; apply IH; auto.
  rewrite dict_set_absent by exact Hm. unfold ser. rewrite map_app. subst; reflexivity.
Qed.

Lemma add_set_cookies_ser hs : forall d p d' p',
  add_set_cookies hs d p = Some (d', p') -> p = ser d ->
  distinct_b (set_cookie_names hs) = true ->
  (forall n, In n (set_cookie_names hs) -> dict_mem n d = false) ->
  p' = ser d'.
Proof.
  induction hs as [|h r IH]; intros d p d' p' Hadd Hp Hdist Hfresh; simpl in Hadd.
  - injection Hadd as <- <-. exact Hp.
  - unfold set_cookie_names in Hdist, Hfresh; simpl in Hdist, Hfresh.
    destruct (parse_set_cookie h) as [[n v]|]; [|discriminate].
    simpl in Hdist, Hfresh. apply andb_prop in Hdist as [Hn Hdist].
    assert (Hm : dict_mem n d = false) by (apply Hfresh; left; reflexivity).
    apply (IH _ _ _ _ Hadd).
    + rewrite dict_set_absent by exact Hm. unfold ser. rewrite map_app. subst; reflexivity.
    + exact Hdist.
    + intros m Hin. rewrite dict_set_absent by exact Hm. rewrite dict_mem_app.
      rewrite (Hfresh m (or_intror Hin)). simpl.
      destruct (String.eqb n m) eqn:E; auto.
      apply String.eqb_eq in E; subst m.
      apply negb_true_iff in Hn. rewrite <- Hn. symmetry.
      apply existsb_exists. exists n. split; [exact Hin | apply String.eqb_refl].
Qed.

Lemma parse_header_strings hv :
  parse_header hv = add_set_cookies (header_strings hv) [] [].
Proof. destruct hv; reflexivity. Qed.

Lemma refresh_request_step_raw st1 d http now wo :
  r_ok (refresh_request_step st1 d http now wo) = true ->
  set_cookie_names_distinct http = true ->
  cookies_str (r_state (refresh_request_step st1 d http now wo)) =
  option_map canonical_raw (cookies (r_state (refresh_request_step st1 d http now wo))).
Proof.
  unfold refresh_request_step, set_cookie_names_distinct.
  destruct http as [|[hv|]]; simpl; try discriminate.
  destruct (parse_header hv) as [[d0 p0]|] eqn:Hp; simpl; try discriminate.
  destruct (cookies st1) as [old|]; simpl; try discriminate.
  intros _ Hdist.
  pose proof (merge_old_ser old d0 p0) as Hm.
  destruct (merge_old old d0 p0) as [d1 p1]; simpl in *.
  rewrite Hm; [reflexivity|].
  rewrite parse_header_strings in Hp.
  apply (add_set_cookies_ser _ _ _ _ _ Hp); auto.
Qed.

Lemma refresh_ok_step tc gd st d env http now wo :
  r_ok (refresh_cookie_with_requests tc gd st d env http now wo) = true ->
  exists st1, refresh_cookie_with_requests tc gd st d env http now wo =
              refresh_request_step st1 d http now wo.
Proof.
  unfold refresh_cookie_with_requests.
  destruct (load_for_refresh tc gd st d env now) as [[|] st1]; simpl.
  - intros _. exists st1. reflexivity.
  - discriminate.
Qed.

(** C5 (counterexample): [set_cookies] stores the cookie string it is
    given without checking it against the dictionary: after
    [set_cookies({a:1}, "b=2")] the cookie string is not the serialization
    of the cookies. *)
Lemma set_cookies_raw_unchecked :
  let st' := fst (set_cookies (mk_state true None None None 0) NoFile
                    [("a", "1")] "b=2" None WriteOk) in
  cookies_str st' <> option_map canonical_raw (cookies st').
Proof. vm_compute. discriminate. Qed.

(** C5 (amended): [set_cookies] stores the dictionary and the string as
    given, so afterwards the string is the serialization of the cookies
    exactly when the caller passed that serialization; after every
    successful refresh whose [Set-Cookie] names are all different, the
    cookie string is the canonical ["; "]-joined [name=value] serialization
    of the new cookies, whatever the state before. *)
Theorem raw_tracks_entries tc gd (st : cm_state) (d : disk) (cd : cdict)
    (cs : string) (did : option string) (wo : write_outcome)
    (env : option string) (http : http_result) (now : Z)
    (Hok : r_ok (refresh_cookie_with_requests tc gd st d env http now wo) = true)
    (Hdistinct : set_cookie_names_distinct http = true) :
  (cookies_str (fst (set_cookies st d cd cs did wo)) =
     option_map canonical_raw (cookies (fst (set_cookies st d cd cs did wo)))
   <-> cs = canonical_raw cd) /\
  cookies_str (r_state (refresh_cookie_with_requests tc gd st d env http now wo)) =
  option_map canonical_raw
    (cookies (r_state (refresh_cookie_with_requests tc gd st d env http now wo))).
Proof.
  split.
  - simpl. split; [intros H; injection H; auto | intros ->; reflexivity].
  - destruct (refresh_ok_step tc gd st d env http now wo Hok) as [st1 E].
    rewrite E in *. apply refresh_request_step_raw; assumption.
Qed.

Lemma raw_tracks_entries_witness :
  let st := mk_state true (Some [("a", "1"); ("b", "2")]) (Some "a=1; b=2") None 0 in
  let http := HttpResp (Some (HStr "a=9; Path=/")) in
  cookies_str (r_state (refresh_cookie_with_requests (fun _ => []) (fun _ => "")
                 st NoFile None http 5 WriteOk)) =
  option_map canonical_raw
    (cookies (r_state (refresh_cookie_with_requests (fun _ => []) (fun _ => "")
                 st NoFile None http 5 WriteOk))).
Proof.
  intros st http.
  apply (raw_tracks_entries (fun _ => []) (fun _ => "") st NoFile [("a", "1")] "a=1"
           None WriteOk None http 5); vm_compute; reflexivity.
Defined.

(** C6 (counterexample): a device id given as the empty string is falsy
    for [if device_id:], so [get_cookies] still returns the previous one. *)
Lemma set_cookies_empty_device_id :
  let st := mk_state true None None (Some "dev1") 0 in
  get_cookies (fst (set_cookies st NoFile [("a", "1")] "a=1" (Some "") WriteOk))
  <> (Some [("a", "1")], Some "a=1", Some "").
Proof. vm_compute. discriminate. Qed.

(** C6 (amended): [set_cookies] followed by [get_cookies] returns the
    dictionary and the string exactly as given, and the given device id
    when it is a non-empty string; when it is [None] or [""] the previous
    device id. *)
Theorem set_then_get (st : cm_state) (d : disk) (cd : cdict) (cs : string)
    (did : option string) (wo : write_outcome) :
  get_cookies (fst (set_cookies st d cd cs did wo)) =
  (Some cd, Some cs, if truthy_str did then did else device_id st).
Proof. reflexivity. Qed.

Lemma refresh_request_step_write st1 d http now a :
  r_ok (refresh_request_step st1 d http now (WriteFail a)) =
  r_ok (refresh_request_step st1 d http now WriteOk) /\
  r_state (refresh_request_step st1 d http now (WriteFail a)) =
  r_state (refresh_request_step st1 d http now WriteOk).
Proof.
  unfold refresh_request_step.
  destruct http as [|[hv|]]; simpl; auto.
  destruct (parse_header hv) as [[d0 p0]|]; simpl; auto.
  destruct (cookies st1) as [old|]; simpl; auto.
  destruct (merge_old old d0 p0); simpl; auto.
Qed.

(** C7: a failed write of the cookie file ([_save_cookie_to_file] returns
    [False]) rolls nothing back: [set_cookies] leaves the values it
    assigned, and a refresh returns the same flag and the same in-memory
    state as with a successful write. *)
Theorem save_failure_no_rollback tc gd (st : cm_state) (d : disk) (a : disk)
    (cd : cdict) (cs : string) (did : option string)
    (env : option string) (http : http_result) (now : Z) :
  fst (_save_cookie_to_file st d (WriteFail a)) = false /\
  get_cookies (fst (set_cookies st d cd cs did (WriteFail a))) =
    (Some cd, Some cs, if truthy_str did then did else device_id st) /\
  fst (set_cookies st d cd cs did (WriteFail a)) =
    fst (set_cookies st d cd cs did WriteOk) /\
  r_ok (refresh_cookie_with_requests tc gd st d env http now (WriteFail a)) =
    r_ok (refresh_cookie_with_requests tc gd st d env http now WriteOk) /\
  r_state (refresh_cookie_with_requests tc gd st d env http now (WriteFail a)) =
    r_state (refresh_cookie_with_requests tc gd st d env http now WriteOk).
Proof.
  do 3 (split; [reflexivity|]).
  unfold refresh_cookie_with_requests.
  destruct (load_for_refresh tc gd st d env now) as [[|] st1]; simpl; auto.
  apply refresh_request_step_write.
Qed.

(** C9: when [self.cookies] is falsy, a refresh first tries
    [_load_cookie_from_file], and only when it fails
    [_load_cookie_from_env]; when both fail it returns [False] and issues
    no HTTP request; when one succeeds it runs the request step on the
    state just loaded, whose GET carries the loaded cookie string. *)
Theorem refresh_loads_when_absent tc gd (st : cm_state) (d : disk)
    (env : option string) (http : http_result) (now : Z) (wo : write_outcome)
    (Habsent : truthy_dict (cookies st) = false) :
  (forall s, r_requests (refresh_request_step s d http now wo) = [cookies_str s]) /\
  let '(b1, s1) := _load_cookie_from_file st d now in
  (b1 = true ->
   refresh_cookie_with_requests tc gd st d env http now wo =
   refresh_request_step s1 d http now wo) /\
  (b1 = false ->
   let '(b2, s2) := _load_cookie_from_env tc gd s1 env in
   (b2 = true ->
    refresh_cookie_with_requests tc gd st d env http now wo =
    refresh_request_step s2 d http now wo) /\
   (b2 = false ->
    r_ok (refresh_cookie_with_requests tc gd st d env http now wo) = false /\
    r_requests (refresh_cookie_with_requests tc gd st d env http now wo) = [])).
Proof.
  split; [intros s; apply refresh_request_step_requests|].
  unfold refresh_cookie_with_requests, load_for_refresh. rewrite Habsent.
  destruct (_load_cookie_from_file st d now) as [b1 s1].
  split; intros Hb1; subst b1; [reflexivity|].
  destruct (_load_cookie_from_env tc gd s1 env) as [b2 s2].
  split; intros Hb2; subst b2; simpl; auto.
Qed.

Lemma refresh_loads_when_absent_witness :
  let st := mk_state true None None None 0 in
  let file := JsonObj (mk_saved (Some (Some [("x", "1")])) (Some (Some "x=1"))
                                None (Some 100%Z)) in
  r_requests (refresh_cookie_with_requests (fun _ => []) (fun _ => "") st file None
                (HttpResp None) 200 WriteOk) = [Some "x=1"].
Proof.
  intros st file.
  destruct (refresh_loads_when_absent (fun _ => []) (fun _ => "") st file None
              (HttpResp None) 200 WriteOk eq_refl) as [Hreq Hload].
  simpl in Hload. destruct Hload as [H1 _].
  rewrite (H1 eq_refl). apply Hreq.
Defined.

Lemma check_cookie_valid_stale (st : cm_state) (tr : token_response) (now : Z) :
  (now - last_refresh_time st > COOKIE_EXPIRY_THRESHOLD)%Z ->
  check_cookie_valid st tr now = false.
Proof.
  intros H. unfold check_cookie_valid.
  destruct (negb (truthy_dict (cookies st)) || negb (xianyu_api st)); auto.
  destruct tr as [|[[|r0 rest]|]]; auto.
  destruct (String.prefix "SUCCESS" r0); auto.
  destruct (Z.gtb_spec (now - last_refresh_time st) COOKIE_EXPIRY_THRESHOLD);
    [reflexivity | lia].
Qed.

(** C10: [set_cookies] leaves [last_refresh_time] unchanged, so when more
    than 3 hours passed since it, [check_cookie_valid] on the state that
    [set_cookies] installed is [false], whatever the token response. *)
Theorem set_cookies_keeps_refresh_time (st : cm_state) (d : disk) (cd : cdict)
    (cs : string) (did : option string) (wo : write_outcome)
    (tr : token_response) (now : Z)
    (Hstale : (now - last_refresh_time st > COOKIE_EXPIRY_THRESHOLD)%Z) :
  last_refresh_time (fst (set_cookies st d cd cs did wo)) = last_refresh_time st /\
  check_cookie_valid (fst (set_cookies st d cd cs did wo)) tr now = false.
Proof.
  split; [reflexivity|].
  apply check_cookie_valid_stale. exact Hstale.
Qed.

Lemma set_cookies_keeps_refresh_time_witness :
  check_cookie_valid
    (fst (set_cookies (mk_state true None None None 0) NoFile [("a", "1")] "a=1"
            (Some "dev") WriteOk))
    (TokenResp (Some ["SUCCESS::ok"])) 20000 = false.
Proof.
  apply (set_cookies_keeps_refresh_time (mk_state true None None None 0) NoFile
           [("a", "1")] "a=1" (Some "dev") WriteOk (TokenResp (Some ["SUCCESS::ok"]))
           20000).
  vm_compute. reflexivity.
Defined.

Lemma sleep_loop_stops (stop_event : nat -> bool) (ts : nat) :
  stop_event ts = true ->
  forall n t, t <= ts <= t + n ->
  sleep_loop stop_event n t <= ts /\ stop_event (sleep_loop stop_event n t) = true.
Proof.
  intros Hset n. induction n as [|n IH]; intros t Hwin; simpl.
  - assert (t = ts) by lia. subst. auto.
  - destruct (stop_event t) eqn:Ht; [split; [lia | exact Ht]|].
    assert (t <> ts) by (intros ->; congruence).
    apply IH. lia.
Qed.

(** C8: when the stop event is set at a second [ts] of the wait
    [for _ in range(interval)] started at second [t], whatever [interval],
    the wait is left by second [ts] with the event seen, and the [while]
    loop then exits; [stop_auto_refresh] called at [ts] returns at [ts]
    there, and in every case by [ts + 5]. *)
Theorem stop_seen_within_one_increment (stop_event : nat -> bool)
    (body : nat -> body_outcome) (interval t ts fuel : nat)
    (Hwin : t <= ts <= t + interval) (Hset : stop_event ts = true) :
  let e := sleep_loop stop_event interval t in
  e <= ts /\
  auto_refresh_loop stop_event body interval (S fuel) e = Some e /\
  stop_auto_refresh true ts (Some e) = ts /\
  (forall alive exit, stop_auto_refresh alive ts exit <= ts + 5).
Proof.
  destruct (sleep_loop_stops stop_event ts Hset interval t Hwin) as [Hle He].
  simpl. split; [exact Hle|]. split; [rewrite He; reflexivity|].
  split; [lia|].
  intros [|] [x|]; simpl; lia.
Qed.

Lemma stop_seen_within_one_increment_witness :
  _auto_refresh_loop (fun u => Nat.leb 7 u) (fun _ => BodyDone 2) 1
    (sleep_loop (fun u => Nat.leb 7 u) CHECK_INTERVAL 3) = Some 7.
Proof.
  destruct (stop_seen_within_one_increment (fun u => Nat.leb 7 u) (fun _ => BodyDone 2)
              CHECK_INTERVAL 3 7 0) as [_ [H _]]; [vm_compute; lia | reflexivity |].
  unfold _auto_refresh_loop. rewrite H. reflexivity.
Defined.

(** ** Further properties of the code *)

(** *** Dictionary lookups *)

Lemma dict_get_set k k' v d :
  dict_get k (dict_set k' v d) = if String.eqb k' k then Some v else dict_get k d.
Proof.
  induction d as [|[k0 v0] r IH]; simpl; [destruct (String.eqb k' k); reflexivity|].
  destruct (String.eqb_spec k0 k') as [->|Hne]; simpl.
  - destruct (String.eqb k' k); reflexivity.
  - rewrite IH. destruct (String.eqb_spec k0 k) as [->|]; auto.
    destruct (String.eqb_spec k' k) as [->|]; congruence.
Qed.

Lemma dict_mem_get_none k d : dict_mem k d = false -> dict_get k d = None.
Proof.
  induction d as [|[k0 v0] r IH]; simpl; auto.
  unfold dict_mem; simpl. destruct (String.eqb k0 k); simpl; [discriminate|].
  exact IH.
Qed.

Lemma dict_mem_true_get k d : dict_mem k d = true -> dict_get k d <> None.
Proof.
  induction d as [|[k0 v0] r IH]; simpl; [discriminate|].
  unfold dict_mem; simpl. destruct (String.eqb k0 k); simpl; [discriminate|].
  exact IH.
Qed.

Lemma merge_old_get old : forall d p k,
  dict_get k (fst (merge_old old d p)) =
  match dict_get k d with Some v => Some v | None => dict_get k old end.
Proof.
  induction old as [|[n v] r IH]; intros d p k; simpl.
  - destruct (dict_get k d); reflexivity.
  - destruct (dict_mem n d) eqn:Hm; rewrite IH.
    + destruct (dict_get k d) eqn:Hg; auto.
      destruct (String.eqb_spec n k) as [->|]; auto.
      exfalso. exact (dict_mem_true_get k d Hm Hg).
    + rewrite dict_get_set.
      destruct (String.eqb_spec n k) as [->|]; auto.
      rewrite (dict_mem_get_none k d Hm). reflexivity.
Qed.

(** C4: with a non-empty cookie dictionary [old] in memory and a response
    whose [Set-Cookie] string (one string, as [requests] delivers it)
    parses to the pair [(n, v)], the refresh succeeds; the new entries give
    [n] the value [v] and every other name its old value, and the cookie
    string is the canonical serialization of the merged entries. *)
Theorem passive_merge_single_header tc gd (st : cm_state) (d : disk)
    (env : option string) (s : string) (now : Z) (wo : write_outcome)
    (old : cdict) (n v : string)
    (Hold : cookies st = Some old) (Hne : old <> [])
    (Hparse : parse_set_cookie s = Some (n, v)) :
  let o := refresh_cookie_with_requests tc gd st d env (HttpResp (Some (HStr s))) now wo in
  r_ok o = true /\
  exists d1, cookies (r_state o) = Some d1 /\
    (forall k, dict_get k d1 = if String.eqb k n then Some v else dict_get k old) /\
    cookies_str (r_state o) = Some (canonical_raw d1).
Proof.
  assert (Hp : truthy_dict (cookies st) = true)
    by (rewrite Hold; destruct old; [congruence | reflexivity]).
  assert (Hph : parse_header (HStr s) = Some ([(n, v)], [kv n v]))
    by (simpl; rewrite Hparse; reflexivity).
  assert (Hdist : set_cookie_names_distinct (HttpResp (Some (HStr s))) = true)
    by (unfold set_cookie_names_distinct, header_names, set_cookie_names; simpl;
        rewrite Hparse; reflexivity).
  pose proof (refresh_request_step_raw st d (HttpResp (Some (HStr s))) now wo) as Hraw.
  simpl. rewrite (refresh_present tc gd st d env _ now wo Hp).
  unfold refresh_request_step in *. rewrite Hph, Hold in *.
  pose proof (merge_old_get old [(n, v)] [kv n v]) as Hg.
  destruct (merge_old old [(n, v)] [kv n v]) as [d1 p1]; simpl in *.
  split; [reflexivity|]. exists d1. split; [reflexivity|]. split.
  - intros k. rewrite Hg. simpl. rewrite (String.eqb_sym n k).
    destruct (String.eqb k n); reflexivity.
  - exact (Hraw eq_refl Hdist).
Qed.

Lemma passive_merge_single_header_witness :
  cookies (r_state (refresh_cookie_with_requests (fun _ => []) (fun _ => "")
     (mk_state true (Some [("a", "1"); ("b", "2")]) (Some "a=1; b=2") None 0) NoFile None
     (HttpResp (Some (HStr "a=9"))) 5 WriteOk)) = Some [("a", "9"); ("b", "2")] /\
  cookies_str (r_state (refresh_cookie_with_requests (fun _ => []) (fun _ => "")
     (mk_state true (Some [("a", "1"); ("b", "2")]) (Some "a=1; b=2") None 0) NoFile None
     (HttpResp (Some (HStr "a=9"))) 5 WriteOk)) = Some "a=9; b=2".
Proof.
  destruct (passive_merge_single_header (fun _ => []) (fun _ => "")
     (mk_state true (Some [("a", "1"); ("b", "2")]) (Some "a=1; b=2") None 0) NoFile None
     "a=9" 5 WriteOk [("a", "1"); ("b", "2")] "a" "9" eq_refl ltac:(discriminate)
     ltac:(vm_compute; reflexivity)) as [_ [d1 [Hc [_ Hs]]]].
  rewrite Hc, Hs. vm_compute in Hc. injection Hc as <-. vm_compute. auto.
Defined.

(** *** [refresh_cookie_with_requests] *)

(** X: with cookies in memory, a refresh succeeds exactly when the GET
    returns a response with a [Set-Cookie] header whose strings all
    parse. *)
Theorem refresh_ok_iff tc gd (st : cm_state) (d : disk) (env : option string)
    (http : http_result) (now : Z) (wo : write_outcome)
    (Hpresent : truthy_dict (cookies st) = true) :
  r_ok (refresh_cookie_with_requests tc gd st d env http now wo) = true <->
  exists hv, http = HttpResp (Some hv) /\ parse_header hv <> None.
Proof.
  rewrite (refresh_present tc gd st d env http now wo Hpresent).
  unfold truthy_dict in Hpresent.
  unfold refresh_request_step.
  destruct http as [|[hv|]]; simpl.
  - split; [discriminate | intros (hv & H & _); discriminate].
  - destruct (parse_header hv) as [[d0 p0]|] eqn:Hph; simpl.
    + destruct (cookies st) as [old|]; [|discriminate].
      destruct (merge_old old d0 p0); simpl.
      split; [intros _; exists hv; split; [reflexivity | rewrite Hph; discriminate]
             | reflexivity].
    + split; [discriminate | intros (hv' & H & Hp); injection H as <-; congruence].
  - split; [discriminate | intros (hv & H & _); discriminate].
Qed.

Lemma refresh_ok_iff_witness :
  let st := mk_state true (Some [("a", "1")]) (Some "a=1") None 0 in
  r_ok (refresh_cookie_with_requests (fun _ => []) (fun _ => "") st NoFile None
          (HttpResp (Some (HStr "a=2; Path=/"))) 5 WriteOk) = true.
Proof.
  intros st. apply (refresh_ok_iff (fun _ => []) (fun _ => "") st NoFile None
                      (HttpResp (Some (HStr "a=2; Path=/"))) 5 WriteOk eq_refl).
  exists (HStr "a=2; Path=/"). split; [reflexivity | vm_compute; discriminate].
Defined.

(** X: a successful refresh from a record in memory stores, for every
    name, the value the [Set-Cookie] strings give it and otherwise the old
    value; it sets [last_refresh_time] to now, keeps the device id and the
    API handle, and (when the write succeeds) writes exactly the new record
    to the cookie file. *)
Theorem refresh_success_record tc gd (st : cm_state) (d : disk)
    (env : option string) (hv : header_val) (now : Z) (old d0 : cdict)
    (p0 : list string)
    (Hold : cookies st = Some old) (Hne : old <> [])
    (Hparse : parse_header hv = Some (d0, p0)) :
  let o := refresh_cookie_with_requests tc gd st d env (HttpResp (Some hv)) now WriteOk in
  r_ok o = true /\
  (exists d1, cookies (r_state o) = Some d1 /\
     forall k, dict_get k d1 =
               match dict_get k d0 with Some v => Some v | None => dict_get k old end) /\
  last_refresh_time (r_state o) = now /\
  device_id (r_state o) = device_id st /\
  xianyu_api (r_state o) = xianyu_api st /\
  r_disk o = JsonObj (saved_of (r_state o)).
Proof.
  assert (Hp : truthy_dict (cookies st) = true)
    by (rewrite Hold; destruct old; [congruence | reflexivity]).
  simpl. rewrite (refresh_present tc gd st d env _ now WriteOk Hp).
  unfold refresh_request_step. rewrite Hparse, Hold.
  pose proof (merge_old_get old d0 p0) as Hg.
  destruct (merge_old old d0 p0) as [d1 p1]; simpl in *.
  repeat split; auto.
  exists d1. split; [reflexivity | exact Hg].
Qed.

Lemma refresh_success_record_witness :
  cookies (r_state (refresh_cookie_with_requests (fun _ => []) (fun _ => "")
     (mk_state true (Some [("a", "1"); ("b", "2")]) (Some "a=1; b=2") None 0) NoFile None
     (HttpResp (Some (HList ["c=3"; "a=9; Path=/"]))) 5 WriteOk))
  <> None.
Proof.
  destruct (refresh_success_record (fun _ => []) (fun _ => "")
     (mk_state true (Some [("a", "1"); ("b", "2")]) (Some "a=1; b=2") None 0) NoFile None
     (HList ["c=3"; "a=9; Path=/"]) 5 [("a", "1"); ("b", "2")] [("c", "3"); ("a", "9")]
     ["c=3"; "a=9"] eq_refl ltac:(discriminate) ltac:(vm_compute; reflexivity))
    as [_ [[d1 [H _]] _]].
  rewrite H. discriminate.
Defined.

(** *** [check_cookie_valid] *)

(** X: [check_cookie_valid] is [true] exactly when the cookies are a
    non-empty dictionary, an API is configured, [get_token] returns a
    non-empty ['ret'] whose first element starts with ["SUCCESS"], and at
    most [COOKIE_EXPIRY_THRESHOLD] seconds passed since
    [last_refresh_time]; every other case (no cookies, no API, [get_token]
    raising, ['ret'] missing or empty, another code) gives [false]. *)
Theorem check_cookie_valid_iff (st : cm_state) (tr : token_response) (now : Z) :
  check_cookie_valid st tr now = true <->
  truthy_dict (cookies st) = true /\ xianyu_api st = true /\
  (exists r0 rest, tr = TokenResp (Some (r0 :: rest)) /\
                   String.prefix "SUCCESS" r0 = true) /\
  (now - last_refresh_time st <= COOKIE_EXPIRY_THRESHOLD)%Z.
Proof.
  unfold check_cookie_valid.
  destruct (truthy_dict (cookies st)), (xianyu_api st); simpl;
    try (split; [discriminate | intros (H & H' & _); discriminate]).
  destruct tr as [|[[|r0 rest]|]];
    try (split; [discriminate | intros (_ & _ & (r0 & rest & Htr & _) & _); discriminate]).
  destruct (String.prefix "SUCCESS" r0) eqn:Hp.
  - destruct (Z.gtb_spec (now - last_refresh_time st) COOKIE_EXPIRY_THRESHOLD).
    + split; [discriminate | intros (_ & _ & _ & H'); lia].
    + split; [intros _; repeat split; auto; exists r0, rest; auto | reflexivity].
  - split; [discriminate|].
    intros (_ & _ & (r0' & rest' & Htr & Hp') & _). injection Htr as -> ->. congruence.
Qed.

(** X: after a successful refresh from a record in memory, with an API
    configured, [check_cookie_valid] accepts a ["SUCCESS"] token response
    for the next 3 hours: the refresh restarted the expiry clock and the
    cookies are not empty. *)
Theorem refresh_then_check_valid tc gd (st : cm_state) (d : disk)
    (env : option string) (http : http_result) (now now' : Z) (wo : write_outcome)
    (r0 : string) (rest : list string)
    (Hpresent : truthy_dict (cookies st) = true) (Hapi : xianyu_api st = true)
    (Hok : r_ok (refresh_cookie_with_requests tc gd st d env http now wo) = true)
    (Hsuccess : String.prefix "SUCCESS" r0 = true)
    (Hwin : (now' - now <= COOKIE_EXPIRY_THRESHOLD)%Z) :
  check_cookie_valid (r_state (refresh_cookie_with_requests tc gd st d env http now wo))
    (TokenResp (Some (r0 :: rest))) now' = true.
Proof.
  rewrite (refresh_present tc gd st d env http now wo Hpresent) in *.
  unfold refresh_request_step in *.
  destruct http as [|[hv|]]; simpl in Hok; try discriminate.
  destruct (parse_header hv) as [[d0 p0]|]; simpl in Hok; try discriminate.
  destruct (cookies st) as [[|[n v] r]|] eqn:Hc; simpl in Hpresent; try discriminate.
  pose proof (merge_old_get ((n, v) :: r) d0 p0 n) as Hg.
  destruct (merge_old ((n, v) :: r) d0 p0) as [d1 p1]; simpl in *.
  apply check_cookie_valid_iff. simpl. repeat split; auto.
  - destruct d1; [|reflexivity]. simpl in Hg. rewrite String.eqb_refl in Hg.
    destruct (dict_get n d0); discriminate.
  - exists r0, rest. auto.
Qed.

Lemma refresh_then_check_valid_witness :
  check_cookie_valid
    (r_state (refresh_cookie_with_requests (fun _ => []) (fun _ => "")
       (mk_state true (Some [("a", "1")]) (Some "a=1") None 0) NoFile None
       (HttpResp (Some (HStr "a=2"))) 20000 WriteOk))
    (TokenResp (Some ["SUCCESS::ok"])) 25000 = true.
Proof.
  apply (refresh_then_check_valid (fun _ => []) (fun _ => "")
           (mk_state true (Some [("a", "1")]) (Some "a=1") None 0) NoFile None
           (HttpResp (Some (HStr "a=2"))) 20000 25000 WriteOk "SUCCESS::ok" []);
    vm_compute; try reflexivity; discriminate.
Defined.

(** *** Sources of the record outside a refresh *)

Lemma request_step_indep st1 d d' http now wo :
  r_ok (refresh_request_step st1 d http now wo) =
  r_ok (refresh_request_step st1 d' http now wo) /\
  r_state (refresh_request_step st1 d http now wo) =
  r_state (refresh_request_step st1 d' http now wo).
Proof.
  unfold refresh_request_step.
  destruct http as [|[hv|]]; simpl; auto.
  destruct (parse_header hv) as [[d0 p0]|]; simpl; auto.
  destruct (cookies st1) as [old|]; simpl; auto.
Qed.

(** X: with cookies in memory, a refresh does not read the cookie file
    or [COOKIES_STR]: its flag and resulting state are the same whatever
    they hold. *)
Theorem refresh_present_ignores_sources tc gd (st : cm_state) (d d' : disk)
    (env env' : option string) (http : http_result) (now : Z) (wo : write_outcome)
    (Hpresent : truthy_dict (cookies st) = true) :
  r_ok (refresh_cookie_with_requests tc gd st d env http now wo) =
  r_ok (refresh_cookie_with_requests tc gd st d' env' http now wo) /\
  r_state (refresh_cookie_with_requests tc gd st d env http now wo) =
  r_state (refresh_cookie_with_requests tc gd st d' env' http now wo).
Proof.
  rewrite !(refresh_present _ _ st _ _ http now wo Hpresent).
  apply request_step_indep.
Qed.

Lemma refresh_present_ignores_sources_witness :
  r_state (refresh_cookie_with_requests (fun _ => []) (fun _ => "")
     (mk_state true (Some [("a", "1")]) (Some "a=1") None 0) NoFile None
     (HttpResp (Some (HStr "a=2"))) 7 WriteOk) =
  r_state (refresh_cookie_with_requests (fun _ => []) (fun _ => "")
     (mk_state true (Some [("a", "1")]) (Some "a=1") None 0) Unreadable (Some "z=0")
     (HttpResp (Some (HStr "a=2"))) 7 WriteOk).
Proof.
  apply (refresh_present_ignores_sources (fun _ => []) (fun _ => "")
           (mk_state true (Some [("a", "1")]) (Some "a=1") None 0) NoFile Unreadable
           None (Some "z=0") (HttpResp (Some (HStr "a=2"))) 7 WriteOk eq_refl).
Defined.

Lemma merge_old_nonempty old d0 p0 :
  old <> [] -> fst (merge_old old d0 p0) <> [].
Proof.
  destruct old as [|[n v] r]; [congruence|]. intros _ H.
  pose proof (merge_old_get ((n, v) :: r) d0 p0 n) as Hg.
  rewrite H in Hg. simpl in Hg. rewrite String.eqb_refl in Hg.
  destruct (dict_get n d0); discriminate.
Qed.

(** *** [__init__] *)

(** X: a manager built over a cookie file holding a non-empty ["cookies"]
    object and a ["cookies_str"] takes its record from the file, whatever
    [COOKIES_STR] holds; a missing ["device_id"] gives [None] and a missing
    ["last_refresh_time"] the construction time. *)
Theorem cm_init_from_file tc gd (api : bool) (s : saved) (c : cdict)
    (cs : option string) (env : option string) (now : Z)
    (Hc : f_cookies s = Some (Some c)) (Hne : c <> [])
    (Hcs : f_cookies_str s = Some cs) :
  cm_init tc gd api (JsonObj s) env now =
  mk_state api (Some c) cs
    (match f_device_id s with Some x => x | None => None end)
    (match f_last_refresh_time s with Some t => t | None => now end).
Proof.
  unfold cm_init, _load_cookie_from_file. rewrite Hc, Hcs. simpl.
  destruct c; [congruence | reflexivity].
Qed.

Lemma cm_init_from_file_witness :
  cm_init (fun _ => [("e", "1")]) (fun _ => "") true
    (JsonObj (mk_saved (Some (Some [("a", "1")])) (Some (Some "a=1")) None None))
    (Some "e=1") 42 =
  mk_state true (Some [("a", "1")]) (Some "a=1") None 42.
Proof.
  apply (cm_init_from_file (fun _ => [("e", "1")]) (fun _ => "") true
           (mk_saved (Some (Some [("a", "1")])) (Some (Some "a=1")) None None)
           [("a", "1")] (Some "a=1") (Some "e=1") 42 eq_refl ltac:(discriminate) eq_refl).
Defined.

(** X: when the cookie file gives no non-empty cookie dictionary (it is
    missing or unreadable, lacks a key, or holds [null] or [{}]), the
    constructor takes the record from a non-empty [COOKIES_STR]: the
    cookies are [trans_cookies(COOKIES_STR)], the cookie string is
    [COOKIES_STR], and a non-empty ['unb'] gives the device id
    [generate_device_id(unb)]. *)
Theorem cm_init_env_fallback tc gd (api : bool) (d : disk) (e : string) (now : Z)
    (Hfile : match d with
             | JsonObj s =>
                 match f_cookies s, f_cookies_str s with
                 | Some (Some (_ :: _)), Some _ => False
                 | _, _ => True
                 end
             | _ => True
             end)
    (He : e <> "") :
  cookies (cm_init tc gd api d (Some e) now) = Some (tc e) /\
  cookies_str (cm_init tc gd api d (Some e) now) = Some e /\
  (forall uid, dict_get "unb" (tc e) = Some uid -> uid <> "" ->
   device_id (cm_init tc gd api d (Some e) now) = Some (gd uid)).
Proof.
  assert (Hl : truthy_dict (cookies (snd (_load_cookie_from_file
                 (mk_state api None None None now) d now))) = false).
  { destruct d as [| |s]; simpl; auto.
    destruct (f_cookies s) as [[[|p c]|]|], (f_cookies_str s); simpl; auto.
    contradiction. }
  unfold cm_init. rewrite Hl.
  unfold _load_cookie_from_env.
  destruct e as [|ch e']; [congruence|]. simpl.
  repeat split; auto.
  intros uid Hu Hne. rewrite Hu. destruct uid; [congruence | reflexivity].
Qed.

Lemma cm_init_env_fallback_witness :
  device_id (cm_init (fun _ => [("unb", "42")]) (fun u => "dev-" ++ u) true
     (JsonObj (mk_saved (Some (Some [])) (Some (Some "")) None (Some 1%Z)))
     (Some "unb=42") 100) = Some "dev-42".
Proof.
  apply (cm_init_env_fallback (fun _ => [("unb", "42")]) (fun u => "dev-" ++ u) true
           (JsonObj (mk_saved (Some (Some [])) (Some (Some "")) None (Some 1%Z)))
           "unb=42" 100 I ltac:(discriminate)); [reflexivity | discriminate].
Defined.

(** X: a manager built with no usable cookie file (missing, unreadable,
    or a JSON object lacking the ["cookies"] or ["cookies_str"] key) and
    no [COOKIES_STR] has no cookies; [check_cookie_valid] then reports
    [false] for any token response, and a refresh with the same file and
    environment returns [false] without any HTTP request. *)
Theorem cm_init_empty tc gd (api : bool) (d : disk) (env : option string)
    (now now' : Z) (tr : token_response) (http : http_result) (wo : write_outcome)
    (Hd : match d with
          | JsonObj s =>
              match f_cookies s, f_cookies_str s with
              | Some _, Some _ => False
              | _, _ => True
              end
          | _ => True
          end)
    (Henv : env = None \/ env = Some "") :
  cookies (cm_init tc gd api d env now) = None /\
  check_cookie_valid (cm_init tc gd api d env now) tr now' = false /\
  r_ok (refresh_cookie_with_requests tc gd (cm_init tc gd api d env now) d env http now' wo)
    = false /\
  r_requests (refresh_cookie_with_requests tc gd (cm_init tc gd api d env now) d env http
                now' wo) = [].
Proof.
  assert (Hl : forall st, _load_cookie_from_file st d now = (false, st) /\
                          _load_cookie_from_file st d now' = (false, st)).
  { intros st. destruct d as [| |s]; simpl; auto.
    destruct (f_cookies s), (f_cookies_str s); simpl; auto; contradiction. }
  unfold cm_init, refresh_cookie_with_requests, load_for_refresh.
  rewrite (proj1 (Hl _)). simpl. rewrite (proj2 (Hl _)).
  destruct Henv as [-> | ->]; repeat split; reflexivity.
Qed.

Lemma cm_init_empty_witness :
  r_requests (refresh_cookie_with_requests (fun _ => []) (fun _ => "")
     (cm_init (fun _ => []) (fun _ => "") true
        (JsonObj (mk_saved (Some (Some [("a", "1")])) None None None)) None 0)
     (JsonObj (mk_saved (Some (Some [("a", "1")])) None None None)) None
     (HttpResp (Some (HStr "a=1"))) 5 WriteOk) = [].
Proof.
  apply (cm_init_empty (fun _ => []) (fun _ => "") true
           (JsonObj (mk_saved (Some (Some [("a", "1")])) None None None)) None 0 5
           TokenRaise (HttpResp (Some (HStr "a=1"))) WriteOk I (or_introl eq_refl)).
Defined.

(** *** Persistence across a restart *)

(** X: after [set_cookies] with a non-empty dictionary and a successful
    write, a new manager built over the written file restores the same
    cookies, cookie string, device id and [last_refresh_time], whatever
    [COOKIES_STR] holds. *)
Theorem set_cookies_persists tc gd (st : cm_state) (d : disk) (cd : cdict)
    (cs : string) (did : option string) (env : option string) (now : Z)
    (Hne : cd <> []) :
  cm_init tc gd (xianyu_api st) (snd (set_cookies st d cd cs did WriteOk)) env now =
  fst (set_cookies st d cd cs did WriteOk).
Proof.
  unfold cm_init. simpl. destruct cd; [congruence | reflexivity].
Qed.

Lemma set_cookies_persists_witness :
  cm_init (fun _ => []) (fun _ => "") true
    (snd (set_cookies (mk_state true None None (Some "dev") 3) NoFile [("a", "1")] "a=1"
            None WriteOk)) (Some "b=2") 50 =
  mk_state true (Some [("a", "1")]) (Some "a=1") (Some "dev") 3.
Proof.
  apply (set_cookies_persists (fun _ => []) (fun _ => "")
           (mk_state true None None (Some "dev") 3) NoFile [("a", "1")] "a=1" None
           (Some "b=2") 50 ltac:(discriminate)).
Defined.

(** X: after a successful refresh from a record in memory with a
    successful write, a new manager built over the written file has
    exactly the refreshed record, including the refresh time. *)
Theorem refresh_persists tc gd (st : cm_state) (d : disk) (env env' : option string)
    (http : http_result) (now now' : Z)
    (Hpresent : truthy_dict (cookies st) = true)
    (Hok : r_ok (refresh_cookie_with_requests tc gd st d env http now WriteOk) = true) :
  cm_init tc gd (xianyu_api st)
    (r_disk (refresh_cookie_with_requests tc gd st d env http now WriteOk)) env' now' =
  r_state (refresh_cookie_with_requests tc gd st d env http now WriteOk).
Proof.
  rewrite (refresh_present tc gd st d env http now WriteOk Hpresent) in *.
  unfold refresh_request_step in *.
  destruct http as [|[hv|]]; simpl in Hok; try discriminate.
  destruct (parse_header hv) as [[d0 p0]|]; simpl in Hok; try discriminate.
  destruct (cookies st) as [old|] eqn:Hc; simpl in Hpresent; try discriminate.
  assert (Hold : old <> []) by (destruct old; simpl in Hpresent; congruence).
  pose proof (merge_old_nonempty old d0 p0 Hold) as Hn.
  destruct (merge_old old d0 p0) as [d1 p1]; simpl in *.
  unfold cm_init. simpl. destruct d1; [congruence | reflexivity].
Qed.

Lemma refresh_persists_witness :
  cm_init (fun _ => []) (fun _ => "") true
    (r_disk (refresh_cookie_with_requests (fun _ => []) (fun _ => "")
       (mk_state true (Some [("a", "1")]) (Some "a=1") None 0) NoFile None
       (HttpResp (Some (HStr "b=2"))) 9 WriteOk)) None 99 =
  mk_state true (Some [("b", "2"); ("a", "1")]) (Some "b=2; a=1") None 9.
Proof.
  etransitivity.
  - apply (refresh_persists (fun _ => []) (fun _ => "")
             (mk_state true (Some [("a", "1")]) (Some "a=1") None 0) NoFile None None
             (HttpResp (Some (HStr "b=2"))) 9 99 eq_refl eq_refl).
  - vm_compute. reflexivity.
Defined.

(** X: when the cookies are not in memory and the cookie file loads, a
    refresh whose request fails (the GET raises, no [Set-Cookie], or a
    [Set-Cookie] string raises) returns [false] but keeps the record just
    loaded from the file in memory: only the load is not undone. *)
Theorem refresh_failure_after_load tc gd (st : cm_state) (d : disk)
    (env : option string) (http : http_result) (now : Z) (wo : write_outcome)
    (Habsent : truthy_dict (cookies st) = false)
    (Hload : fst (_load_cookie_from_file st d now) = true)
    (Hfail : failing_response http = true) :
  r_ok (refresh_cookie_with_requests tc gd st d env http now wo) = false /\
  r_state (refresh_cookie_with_requests tc gd st d env http now wo) =
    snd (_load_cookie_from_file st d now) /\
  r_disk (refresh_cookie_with_requests tc gd st d env http now wo) = d.
Proof.
  unfold refresh_cookie_with_requests, load_for_refresh. rewrite Habsent.
  destruct (_load_cookie_from_file st d now) as [b1 s1]; simpl in Hload; subst b1.
  simpl.
  pose proof (refresh_request_step_failing s1 d http now wo Hfail) as Hf.
  destruct (refresh_request_step_fail s1 d http now wo Hf) as [Hs Hd].
  auto.
Qed.

Lemma refresh_failure_after_load_witness :
  r_state (refresh_cookie_with_requests (fun _ => []) (fun _ => "")
     (mk_state true None None None 0)
     (JsonObj (mk_saved (Some (Some [("a", "1")])) (Some (Some "a=1")) None (Some 4%Z)))
     None HttpRaise 10 WriteOk) =
  mk_state true (Some [("a", "1")]) (Some "a=1") None 4.
Proof.
  destruct (refresh_failure_after_load (fun _ => []) (fun _ => "")
     (mk_state true None None None 0)
     (JsonObj (mk_saved (Some (Some [("a", "1")])) (Some (Some "a=1")) None (Some 4%Z)))
     None HttpRaise 10 WriteOk eq_refl eq_refl eq_refl) as [_ [H _]].
  rewrite H. reflexivity.
Defined.

(** *** The background thread *)

Lemma sleep_loop_ge (stop_event : nat -> bool) n : forall t,
  t <= sleep_loop stop_event n t.
Proof.
  induction n as [|n IH]; intros t; simpl; [lia|].
  destruct (stop_event t); [lia|]. specialize (IH (S t)). lia.
Qed.

Lemma auto_refresh_loop_exit_stop (stop_event : nat -> bool)
    (body : nat -> body_outcome) (interval fuel t e : nat) :
  auto_refresh_loop stop_event body interval fuel t = Some e ->
  stop_event e = true /\ t <= e.
Proof.
  revert t. induction fuel as [|f IH]; intros t Hexit; simpl in Hexit;
    [discriminate|].
  destruct (stop_event t) eqn:Hs.
  - injection Hexit as <-. auto.
  - destruct (body t) as [dur|dur].
    + destruct (IH _ Hexit) as [He Hle]. split; [exact He|].
      pose proof (sleep_loop_ge stop_event interval (t + dur)). lia.
    + destruct (IH _ Hexit) as [He Hle]. split; [exact He | lia].
Qed.

(** X: the loop of [_auto_refresh_loop] ends only at a check of the stop
    event that finds it set, so while the event is never set it never
    ends; a pass that raises [dur] seconds after a check at [t] is followed
    by the [time.sleep(60)] pause, after which the loop goes on with its
    next check at [t + dur + 60]. *)
Theorem auto_refresh_loop_exit (stop_event : nat -> bool) (body : nat -> body_outcome)
    (interval fuel t dur : nat) :
  (forall e, auto_refresh_loop stop_event body interval fuel t = Some e ->
             stop_event e = true /\ t <= e) /\
  ((forall u, stop_event u = false) ->
   auto_refresh_loop stop_event body interval fuel t = None) /\
  (stop_event t = false -> body t = BodyRaise dur ->
   auto_refresh_loop stop_event body interval (S fuel) t =
   auto_refresh_loop stop_event body interval fuel (t + dur + 60)).
Proof.
  split; [intros e; apply auto_refresh_loop_exit_stop|]. split.
  - intros Hnever.
    destruct (auto_refresh_loop stop_event body interval fuel t) as [e|] eqn:E;
      [|reflexivity].
    destruct (auto_refresh_loop_exit_stop _ _ _ _ _ _ E) as [He _].
    rewrite Hnever in He. discriminate.
  - intros Hs Hb. simpl. rewrite Hs, Hb. reflexivity.
Qed.

Lemma auto_refresh_loop_exit_witness :
  _auto_refresh_loop (Nat.leb 5) (fun _ => BodyRaise 1) 3 0 = Some 61.
Proof.
  destruct (auto_refresh_loop_exit (Nat.leb 5) (fun _ => BodyRaise 1) CHECK_INTERVAL 2 0 1)
    as [_ [_ Hraise]].
  unfold _auto_refresh_loop. rewrite (Hraise eq_refl eq_refl).
  vm_compute. reflexivity.
Defined.

(** X: [start_auto_refresh] while the thread is alive changes nothing, so
    starting twice is starting once; after a [stop_auto_refresh] whose
    thread exited (or when no thread runs), [start_auto_refresh] starts a
    new thread with the stop event cleared. *)
Theorem start_auto_refresh_idempotent (c : thread_ctl) :
  start_auto_refresh (start_auto_refresh c) = start_auto_refresh c /\
  thread_alive (start_auto_refresh c) = true /\
  start_auto_refresh (stop_auto_refresh_thread c true) =
    mk_ctl true false (S (started c)).
Proof.
  unfold start_auto_refresh, stop_auto_refresh_thread.
  destruct c as [[|] s n]; simpl; auto.
Qed.

(** X: when [join(timeout=5)] returns with the thread still alive, a
    following [start_auto_refresh] is a no-op: no new thread is started and
    the stop event stays set, so the old loop exits at its next check and
    no loop runs afterwards. *)
Theorem start_after_timed_out_stop (c : thread_ctl)
    (Halive : thread_alive c = true) :
  start_auto_refresh (stop_auto_refresh_thread c false) =
    stop_auto_refresh_thread c false /\
  stop_set (start_auto_refresh (stop_auto_refresh_thread c false)) = true /\
  started (start_auto_refresh (stop_auto_refresh_thread c false)) = started c.
Proof.
  unfold start_auto_refresh, stop_auto_refresh_thread. rewrite Halive. simpl. auto.
Qed.

Lemma start_after_timed_out_stop_witness :
  stop_set (start_auto_refresh (stop_auto_refresh_thread (mk_ctl true false 1) false))
  = true.
Proof.
  apply (start_after_timed_out_stop (mk_ctl true false 1) eq_refl).
Defined.
